(** * The Titanic data-preparation pipeline of [ApacheSparkwithPyspark.ipynb]

    A shallow embedding of the notebook's own glue code: the header filter
    (cell 13), [row_to_labeled_point] (cell 19) and its map over the data
    (cell 21), the train/test split call (cell 26), the category counts
    given to the classifier (cell 30) and the accuracy computation (cells
    32 to 36, and again 39 to 41).

    Conventions of the embedding.
    - A Python [str] is a [string] of 8-bit characters (the data file is
      plain ASCII); an RDD is the [list] of its elements in order.
    - A Python exception is a value of [exn]; code that may raise returns
      [result A], and statements are sequenced with the bind of that monad,
      so the first exception raised is the one returned.
    - Python's [int] is [Z].  The floats of [LabeledPoint] hold the small
      integers the parser computes, so they are kept as [Z]; the quotient
      of the accuracy is kept as an exact rational in [Q]. *)

From Stdlib Require Import ZArith QArith Lia.
From Stdlib Require Import Strings.String Strings.Ascii.
From stdpp Require Import base decidable list strings.

Local Open Scope string_scope.
Local Open Scope Z_scope.

(** ** Exceptions and results *)

Inductive exn : Type :=
  | ValueError
  | IndexError
  | ZeroDivisionError
  | RuntimeError (msg : string).

Inductive result (A : Type) : Type :=
  | Ok (a : A)
  | Raise (e : exn).

Arguments Ok {A} a.
Arguments Raise {A} e.

(** Sequencing: the first exception raised ends the computation. *)
#[global] Instance result_bind : MBind result :=
  fun A B (k : A -> result B) (r : result A) =>
    match r with
    | Ok a => k a
    | Raise e => Raise e
    end.

#[global] Instance result_ret : MRet result := fun A a => Ok a.

Definition is_ok {A : Type} (r : result A) : bool :=
  match r with Ok _ => true | Raise _ => false end.

(** [rdd.map(f)] followed by an action: every element is computed, and the
    first exception aborts the job. *)
Fixpoint map_rdd {A B : Type} (f : A -> result B) (rdd : list A)
  : result (list B) :=
  match rdd with
  | [] => Ok []
  | x :: rest => y ← f x; ys ← map_rdd f rest; Ok (y :: ys)
  end.

(** ** The string methods the parser calls *)

(** The quote character, code 34. *)
Definition dquote : ascii := "034"%char.

Definition char_in (c : ascii) (chars : string) : bool :=
  existsb (Ascii.eqb c) (list_ascii_of_string chars).

(** [s.split(sep)] for a one-character separator: every occurrence of
    [sep] ends a segment, empty segments are kept, and the result is never
    empty. *)
Fixpoint split (sep : ascii) (s : string) : list string :=
  match s with
  | EmptyString => [EmptyString]
  | String c s' =>
      if Ascii.eqb c sep then EmptyString :: split sep s'
      else match split sep s' with
           | seg :: segs => String c seg :: segs
           | [] => [String c EmptyString]
           end
  end.

Fixpoint lstrip (chars : string) (s : string) : string :=
  match s with
  | EmptyString => EmptyString
  | String c s' => if char_in c chars then lstrip chars s' else s
  end.

Fixpoint rstrip (chars : string) (s : string) : string :=
  match s with
  | EmptyString => EmptyString
  | String c s' =>
      match rstrip chars s' with
      | EmptyString => if char_in c chars then EmptyString
                       else String c EmptyString
      | r => String c r
      end
  end.

(** [s.strip(chars)]: leading and trailing characters of [chars] removed. *)
Definition strip (chars : string) (s : string) : string :=
  rstrip chars (lstrip chars s).

(** [s[0]]. *)
Definition index0 (s : string) : result ascii :=
  match s with
  | EmptyString => Raise IndexError
  | String c _ => Ok c
  end.

Definition is_digit (c : ascii) : bool :=
  (48 <=? Z.of_nat (nat_of_ascii c)) && (Z.of_nat (nat_of_ascii c) <=? 57).

(** [int(c)] for a one-character string [c]. *)
Definition int_of_char (c : ascii) : result Z :=
  if is_digit c then Ok (Z.of_nat (nat_of_ascii c) - 48) else Raise ValueError.

(** ** Labeled points *)

Record LabeledPoint : Type := mkLabeledPoint {
  label : Z;
  features : list Z
}.

Definition ages : list string := ["adults"; "child"].
Definition sexes : list string := ["man"; "women"].
Definition outcomes : list string := ["yes"; "no"].

(** The fields of a line: the segments of [line.split(',')], each with its
    quote characters stripped. *)
Definition fields (line : string) : list string :=
  map (strip (String dquote EmptyString)) (split "," line).

(** Cell 19.  The five-name unpacking raises [ValueError] unless the line
    has exactly five segments; [klass[0]] and [int] come before the
    membership test, so their exceptions win over ['unknown value']. *)
Definition row_to_labeled_point (line : string) : result LabeledPoint :=
  match fields line with
  | [passenger_id; klass; age; sex; survived] =>
      c ← index0 klass;
      d ← int_of_char c;
      let klass := d - 1 in
      if bool_decide (age ∉ ages)
         || bool_decide (sex ∉ sexes)
         || bool_decide (survived ∉ outcomes)
      then Raise (RuntimeError "unknown value")
      else
        let features :=
          [ klass;
            (if bool_decide (age = "adults") then 1 else 0);
            (if bool_decide (sex = "women") then 1 else 0) ] in
        Ok (mkLabeledPoint
              (if bool_decide (survived = "yes") then 1 else 0) features)
  | _ => Raise ValueError
  end.

(** A field between quotes, and a line of quoted fields joined by commas,
    as the data file writes them. *)
Definition quoted (s : string) : string :=
  String dquote (s ++ String dquote EmptyString).

Fixpoint csv_line (fs : list string) : string :=
  match fs with
  | [] => EmptyString
  | [f] => quoted f
  | f :: rest => quoted f ++ String "," (csv_line rest)
  end.

(** ** Cell 13: dropping the header *)

(** [rdd.first()]; an empty RDD raises [ValueError]. *)
Definition first (rdd : list string) : result string :=
  match rdd with
  | [] => Raise ValueError
  | line :: _ => Ok line
  end.

Definition data_rdd (raw_rdd : list string) : result (list string) :=
  header ← first raw_rdd;
  Ok (filter (fun line => line ≠ header) raw_rdd).

(** Cell 21. *)
Definition labeled_points_rdd (raw_rdd : list string)
  : result (list LabeledPoint) :=
  data ← data_rdd raw_rdd;
  map_rdd row_to_labeled_point data.

(** ** Reading the codes back

    The legend of the notebook (the cell above cell 19) gives the meaning
    of every code: survival 0=no, 1=yes; ticket class 0=1st class,
    1=2nd class, 2=3rd class; age group 0=child, 1=adults; gender 0=man,
    1=women.  The tokens are spelled as the data file and the parser spell
    them. *)

Definition classes : list string := ["1st class"; "2nd class"; "3rd class"].

Definition class_of_code (k : Z) : option string :=
  if k =? 0 then Some "1st class"
  else if k =? 1 then Some "2nd class"
  else if k =? 2 then Some "3rd class"
  else None.

Definition age_of_code (a : Z) : option string :=
  if a =? 0 then Some "child" else if a =? 1 then Some "adults" else None.

Definition sex_of_code (g : Z) : option string :=
  if g =? 0 then Some "man" else if g =? 1 then Some "women" else None.

Definition survived_of_label (l : Z) : option string :=
  if l =? 0 then Some "no" else if l =? 1 then Some "yes" else None.

Definition decode (lp : LabeledPoint)
  : option (string * string * string * string) :=
  match features lp with
  | [k; a; g] =>
      match class_of_code k, age_of_code a, sex_of_code g,
            survived_of_label (label lp) with
      | Some klass, Some age, Some sex, Some survived =>
          Some (klass, age, sex, survived)
      | _, _, _, _ => None
      end
  | _ => None
  end.

(** The class, age, sex and survived strings of a five-field line. *)
Definition categories (line : string)
  : option (string * string * string * string) :=
  match fields line with
  | [_; klass; age; sex; survived] => Some (klass, age, sex, survived)
  | _ => None
  end.

(** A line whose four categorical fields are all known categories. *)
Definition known_line (line : string) : Prop :=
  match categories line with
  | Some (klass, age, sex, survived) =>
      klass ∈ classes ∧ age ∈ ages ∧ sex ∈ sexes ∧ survived ∈ outcomes
  | None => False
  end.

(** The value of a decimal digit. *)
Definition digit_value (c : ascii) : Z := Z.of_nat (nat_of_ascii c) - 48.

(** ** Cell 26: the train/test split *)

(** Rows kept by a mask of booleans, in order. *)
Fixpoint select {A : Type} (mask : list bool) (rdd : list A) : list A :=
  match mask, rdd with
  | b :: mask', x :: rest =>
      if b then x :: select mask' rest else select mask' rest
  | _, _ => []
  end.

Section RandomSplit.
Context {A : Type}.

(** The pseudo-random generator is a parameter: a state, the generator a
    seed creates, one uniform draw, and the draw of a seed when the
    caller gives none. *)
Variable Gen : Type.
Variable seeded : Z -> Gen.
Variable uniform : Gen -> Q * Gen.
Variable draw_seed : Gen -> Z * Gen.

(** Modelled from the spec: one pass of the split over the rows (the
    library's sampler, not part of this repository), with the draws of
    [g]: a row is kept when its draw lies in the half-open range from [lb]
    to [ub]. *)
Fixpoint range_sample (lb ub : Q) (g : Gen) (rdd : list A) : list A :=
  match rdd with
  | [] => []
  | x :: rest =>
      let (u, g') := uniform g in
      if Qle_bool lb u && negb (Qle_bool ub u)
      then x :: range_sample lb ub g' rest
      else range_sample lb ub g' rest
  end.

(** Modelled from the spec: the same pass as a mask over the rows. *)
Fixpoint range_mask (lb ub : Q) (g : Gen) (n : nat) : list bool :=
  match n with
  | O => []
  | S n' =>
      let (u, g') := uniform g in
      (Qle_bool lb u && negb (Qle_bool ub u)) :: range_mask lb ub g' n'
  end.

(** Modelled from the spec: the running sums of the weights of the split,
    each weight divided by the total [s]. *)
Fixpoint cumulative (s acc : Q) (weights : list Q) : list Q :=
  match weights with
  | [] => []
  | w :: ws => (acc + w / s)%Q :: cumulative s (acc + w / s)%Q ws
  end.

(** Modelled from the spec: the total of the weights of the split. *)
Definition total (weights : list Q) : Q :=
  fold_left Qplus weights 0%Q.

(** Modelled from the spec: [randomSplit] is a method of the Spark RDD
    library that cell 26 calls; its code is not part of this repository.
    The spec describes it as a seeded random assignment of every record
    to one of the subsets, approximating the given ratio.  The model: the
    weights are normalised to consecutive ranges that cover the unit
    interval; every subset is one pass over the rows, in order, with a
    generator created anew from the seed, and keeps the rows whose draw
    falls in its range.  Without a seed one is drawn from the state
    [session] of the calling session, which is otherwise left alone.
    Draws and weights are exact rationals. *)
Definition randomSplit (weights : list Q) (seed : option Z)
    (rdd : list A) (session : Gen) : result (list (list A)) * Gen :=
  let s := total weights in
  if Qeq_bool s 0 then (Raise ZeroDivisionError, session)
  else
    let cweights := 0%Q :: cumulative s 0%Q weights in
    let (sd, session') :=
      match seed with
      | Some sd => (sd, session)
      | None => draw_seed session
      end in
    (Ok (map (fun r : Q * Q => range_sample r.1 r.2 (seeded sd) rdd)
             (zip cweights (tail cweights))),
     session').
End RandomSplit.

(** A small linear congruential generator, to run the split on examples. *)
Module Lcg.
Definition modulus : positive := 2147483648.
Definition next (g : Z) : Z := (1103515245 * g + 12345) mod Z.pos modulus.
Definition seeded (seed : Z) : Z := next (seed mod Z.pos modulus).
Definition uniform (g : Z) : Q * Z := (Qmake (next g) modulus, next g).
Definition draw_seed (g : Z) : Z * Z := (next g, next g).
End Lcg.

(** ** Cells 32 to 36: predictions and accuracy *)

Section Evaluate.
(** The trained model is opaque: a function from a feature vector to a
    predicted label. *)
Variable predict : list Z -> Z.

Definition predictions_rdd (test_rdd : list LabeledPoint) : list Z :=
  map predict (map features test_rdd).

(** Cell 34: labels zipped with predictions.  The library's [zip] needs
    as many predictions as labels; the properties below assume it. *)
Definition truth_and_predictions_rdd (test_rdd : list LabeledPoint)
    (predictions : list Z) : list (Z * Z) :=
  zip (map label test_rdd) predictions.

Definition count {X : Type} (rdd : list X) : Z := Z.of_nat (length rdd).

(** Cell 36: the matching pairs counted, divided by [float(test_count)];
    a zero count raises [ZeroDivisionError]. *)
Definition accuracy (truth_and_predictions : list (Z * Z))
    (test_count : Z) : result Q :=
  if test_count =? 0 then Raise ZeroDivisionError
  else Ok (inject_Z (count (filter (fun v_p : Z * Z => v_p.1 = v_p.2)
                                   truth_and_predictions))
           / inject_Z test_count)%Q.

Definition evaluate (test_rdd : list LabeledPoint) : result Q :=
  accuracy (truth_and_predictions_rdd test_rdd (predictions_rdd test_rdd))
           (count test_rdd).
End Evaluate.

(** The number of test records whose prediction equals the true label,
    counted record by record. *)
Fixpoint matching (test_rdd : list LabeledPoint) (predictions : list Z)
  : nat :=
  match test_rdd, predictions with
  | lp :: rest, p :: ps =>
      ((if bool_decide (label lp = p) then 1 else 0)
       + matching rest ps)%nat
  | _, _ => O
  end.

(** ** Measures of lines and records *)

(** How often the character [c] occurs in [s]. *)
Fixpoint count_char (c : ascii) (s : string) : nat :=
  match s with
  | EmptyString => O
  | String c' s' => ((if Ascii.eqb c' c then 1 else 0) + count_char c s')%nat
  end.

Definition head_char (s : string) : option ascii :=
  match s with
  | EmptyString => None
  | String c _ => Some c
  end.

Fixpoint last_char (s : string) : option ascii :=
  match s with
  | EmptyString => None
  | String c EmptyString => Some c
  | String _ s' => last_char s'
  end.

(** A field value with neither a comma nor a quote character in it. *)
Definition plain (f : string) : bool :=
  negb (char_in "," f) && negb (char_in dquote f).

(** Cell 30: the arguments [numClasses=2] and
    [categoricalFeaturesInfo={0: 3, 1: 2, 2: 2}] of the classifier, the
    dict as its list of items. *)
Definition numClasses : Z := 2.

Definition categoricalFeaturesInfo : list (nat * Z) :=
  [(0%nat, 3); (1%nat, 2); (2%nat, 2)].

(** The label is one of [numClasses] classes and every feature listed in
    [categoricalFeaturesInfo] is one of its declared number of
    categories. *)
Definition within_categories (lp : LabeledPoint) : bool :=
  (0 <=? label lp) && (label lp <? numClasses)
  && forallb (fun item : nat * Z =>
                match features lp !! item.1 with
                | Some v => (0 <=? v) && (v <? item.2)
                | None => false
                end)
             categoricalFeaturesInfo.

(** A model to run the evaluation on examples: it predicts survival for
    women and death for men. *)
Definition women_survive (fs : list Z) : Z :=
  match fs with
  | [_; _; g] => g
  | _ => 0
  end.

(** * Properties *)

(** The first data row of the file, character code by character code. *)
Example first_row_codes :
  map nat_of_ascii
      (list_ascii_of_string
         (csv_line ["1"; "1st class"; "adults"; "man"; "yes"]))
  = [34; 49; 34; 44; 34; 49; 115; 116; 32; 99; 108; 97; 115; 115; 34; 44;
     34; 97; 100; 117; 108; 116; 115; 34; 44; 34; 109; 97; 110; 34; 44; 34;
     121; 101; 115; 34]%nat.
Proof. vm_compute. reflexivity. Qed.

Example first_row_fields :
  fields (csv_line ["1"; "1st class"; "adults"; "man"; "yes"])
  = ["1"; "1st class"; "adults"; "man"; "yes"].
Proof. vm_compute. reflexivity. Qed.

(** Cells 13 to 21 on a file of a header and three rows. *)
Example small_file :
  labeled_points_rdd
    [csv_line [EmptyString; "class"; "age"; "sex"; "survived"];
     csv_line ["1"; "1st class"; "adults"; "man"; "yes"];
     csv_line ["256"; "1st class"; "adults"; "women"; "yes"];
     csv_line ["1204"; "3rd class"; "child"; "women"; "no"]]
  = Ok [mkLabeledPoint 1 [0; 1; 0]; mkLabeledPoint 1 [0; 1; 1];
        mkLabeledPoint 0 [2; 0; 1]].
Proof. vm_compute. reflexivity. Qed.

(** The header itself does not parse: its class field starts with a
    letter. *)
Example header_row_raises :
  row_to_labeled_point
    (csv_line [EmptyString; "class"; "age"; "sex"; "survived"])
  = Raise ValueError.
Proof. vm_compute. reflexivity. Qed.

(** ** The parser *)

(** What the parser returns on a five-field line whose class field starts
    with a decimal digit. *)
Lemma row_of_fields line pid c k' a s v :
  fields line = [pid; String c k'; a; s; v] ->
  is_digit c = true ->
  row_to_labeled_point line =
    if bool_decide (a ∉ ages) || bool_decide (s ∉ sexes)
       || bool_decide (v ∉ outcomes)
    then Raise (RuntimeError "unknown value")
    else Ok (mkLabeledPoint
               (if bool_decide (v = "yes") then 1 else 0)
               [digit_value c - 1;
                if bool_decide (a = "adults") then 1 else 0;
                if bool_decide (s = "women") then 1 else 0]).
Proof.
  intros Hf Hc. unfold row_to_labeled_point. rewrite Hf. simpl.
  unfold int_of_char. rewrite Hc. reflexivity.
Qed.

(** Every record the parser returns comes from a five-field line with a
    digit-led class field and three recognised tokens. *)
Lemma row_ok_inv line r :
  row_to_labeled_point line = Ok r ->
  exists pid c k' a s v,
    fields line = [pid; String c k'; a; s; v]
    /\ is_digit c = true
    /\ a ∈ ages /\ s ∈ sexes /\ v ∈ outcomes
    /\ r = mkLabeledPoint
             (if bool_decide (v = "yes") then 1 else 0)
             [digit_value c - 1;
              if bool_decide (a = "adults") then 1 else 0;
              if bool_decide (s = "women") then 1 else 0].
Proof.
  unfold row_to_labeled_point.
  destruct (fields line) as [|pid [|k [|a [|s [|v [|x xs]]]]]] eqn:Hf;
    try discriminate.
  destruct k as [|c k']; [discriminate|]. simpl.
  unfold int_of_char. destruct (is_digit c) eqn:Hc; [|discriminate]. simpl.
  destruct (bool_decide (a ∉ ages)) eqn:Ha; [discriminate|].
  destruct (bool_decide (s ∉ sexes)) eqn:Hs; [discriminate|].
  destruct (bool_decide (v ∉ outcomes)) eqn:Hv; [discriminate|].
  simpl. intros [= <-].
  apply bool_decide_eq_false in Ha, Hs, Hv.
  exists pid, c, k', a, s, v.
  split_and!; try done;
    match goal with |- ?x ∈ ?l => destruct (decide (x ∈ l)); tauto end.
Qed.

Lemma is_digit_range c :
  is_digit c = true -> 0 <= digit_value c <= 9.
Proof.
  unfold is_digit, digit_value. intros H.
  apply andb_true_iff in H as [H1 H2]. lia.
Qed.

(** C5: parsing the first data row of the file, with class [1st class], age
    [adults], sex [man] and outcome [yes], succeeds with label 1 and
    feature vector [0, 1, 0]. *)
Theorem C5_first_row_parses :
  row_to_labeled_point (csv_line ["1"; "1st class"; "adults"; "man"; "yes"])
  = Ok (mkLabeledPoint 1 [0; 1; 0]).
Proof. vm_compute. reflexivity. Qed.

(** C9: every record the parser returns has label 0 or 1 and three
    features, of which the age group and the gender are 0 or 1; the ticket
    class is only known to be the value of a decimal digit minus one. *)
Theorem C9_parsed_ranges line r :
  row_to_labeled_point line = Ok r ->
  (label r = 0 \/ label r = 1)
  /\ exists k a g,
       features r = [k; a; g]
       /\ (a = 0 \/ a = 1) /\ (g = 0 \/ g = 1) /\ -1 <= k <= 8.
Proof.
  intros H. apply row_ok_inv in H
    as (pid & c & k' & a & s & v & _ & Hc & _ & _ & _ & ->).
  simpl. split.
  - case_bool_decide; auto.
  - eexists _, _, _. split; [reflexivity|].
    apply is_digit_range in Hc.
    repeat split; try lia; case_bool_decide; auto.
Qed.

Lemma C9_parsed_ranges_witness :
  let r := mkLabeledPoint 1 [0; 1; 0] in
  (label r = 0 \/ label r = 1)
  /\ exists k a g,
       features r = [k; a; g]
       /\ (a = 0 \/ a = 1) /\ (g = 0 \/ g = 1) /\ -1 <= k <= 8.
Proof.
  apply (C9_parsed_ranges
           (csv_line ["1"; "1st class"; "adults"; "man"; "yes"])).
  vm_compute. reflexivity.
Defined.

(** C3: on a five-field line whose age, sex or survived token is not one
    the parser knows, the parser raises and returns no record; when the
    class field starts with a digit the exception is the parser's own
    [RuntimeError('unknown value')]. *)
Theorem C3_unknown_token_raises line pid k a s v :
  fields line = [pid; k; a; s; v] ->
  a ∉ ages \/ s ∉ sexes \/ v ∉ outcomes ->
  exists e,
    row_to_labeled_point line = Raise e
    /\ forall c k', k = String c k' -> is_digit c = true ->
                    e = RuntimeError "unknown value".
Proof.
  intros Hf Hbad.
  destruct (row_to_labeled_point line) as [r|e] eqn:Hrow.
  - apply row_ok_inv in Hrow
      as (pid' & c & k' & a' & s' & v' & Hf' & _ & Ha & Hs & Hv & _).
    rewrite Hf in Hf'. simplify_eq. tauto.
  - exists e. split; [reflexivity|].
    intros c k' -> Hc.
    rewrite (row_of_fields _ _ _ _ _ _ _ Hf Hc) in Hrow.
    destruct Hbad as [H|[H|H]];
      rewrite (bool_decide_eq_true_2 _ H) in Hrow;
      rewrite ?orb_true_r in Hrow; simpl in Hrow; congruence.
Qed.

Lemma C3_unknown_token_raises_witness :
  exists e,
    row_to_labeled_point
      (csv_line ["7"; "2nd class"; "adult"; "man"; "no"]) = Raise e
    /\ forall c k', "2nd class" = String c k' -> is_digit c = true ->
                    e = RuntimeError "unknown value".
Proof.
  apply (C3_unknown_token_raises
           (csv_line ["7"; "2nd class"; "adult"; "man"; "no"])
           "7" "2nd class" "adult" "man" "no").
  - vm_compute. reflexivity.
  - left. unfold ages. rewrite !not_elem_of_cons. split_and!; try discriminate.
    apply not_elem_of_nil.
Defined.

(** C1, as the code has it: on a five-field line whose class field starts
    with a decimal digit, the parser returns a record exactly when the age
    is [adults] or [child], the sex is [man] or [women] and the outcome is
    [yes] or [no]; the class code of that record is the digit minus one. *)
Theorem C1_accepts_iff line pid c k' a s v :
  fields line = [pid; String c k'; a; s; v] ->
  is_digit c = true ->
  (is_ok (row_to_labeled_point line) = true
     <-> a ∈ ages /\ s ∈ sexes /\ v ∈ outcomes)
  /\ forall r, row_to_labeled_point line = Ok r ->
               features r !! 0%nat = Some (digit_value c - 1).
Proof.
  intros Hf Hc. rewrite (row_of_fields _ _ _ _ _ _ _ Hf Hc). split.
  - repeat case_bool_decide; simpl; split; try tauto; try discriminate.
  - repeat case_bool_decide; simpl; intros r; try discriminate;
      intros [= <-]; reflexivity.
Qed.

Lemma C1_accepts_iff_witness :
  let line := csv_line ["256"; "1st class"; "adults"; "women"; "yes"] in
  (is_ok (row_to_labeled_point line) = true
     <-> "adults" ∈ ages /\ "women" ∈ sexes /\ "yes" ∈ outcomes)
  /\ forall r, row_to_labeled_point line = Ok r ->
               features r !! 0%nat = Some (digit_value "1" - 1).
Proof.
  apply (C1_accepts_iff
           (csv_line ["256"; "1st class"; "adults"; "women"; "yes"])
           "256" "1"%char "st class" "adults" "women" "yes").
  - vm_compute. reflexivity.
  - vm_compute. reflexivity.
Defined.

(** C1 as stated fails: a line with age [adult] and sex [woman], and a
    known class and outcome, is rejected. *)
Lemma C1_adult_woman_rejected :
  ~ (forall line pid k v,
       fields line = [pid; k; "adult"; "woman"; v] ->
       k ∈ classes -> v ∈ outcomes ->
       is_ok (row_to_labeled_point line) = true).
Proof.
  intros H.
  specialize (H (csv_line ["1"; "1st class"; "adult"; "woman"; "yes"])
                "1" "1st class" "yes").
  assert (Hrow : row_to_labeled_point
                   (csv_line ["1"; "1st class"; "adult"; "woman"; "yes"])
                 = Raise (RuntimeError "unknown value"))
    by (vm_compute; reflexivity).
  rewrite Hrow in H. simpl in H.
  enough (false = true) by discriminate.
  apply H.
  - vm_compute. reflexivity.
  - unfold classes. rewrite !elem_of_cons. auto.
  - unfold outcomes. rewrite !elem_of_cons. auto.
Qed.

(** The class code lies in 0..2 exactly for the digits 1, 2 and 3. *)
Lemma class_code_range c :
  (0 <=? digit_value c - 1) && (digit_value c - 1 <=? 2)
  = char_in c "123".
Proof.
  destruct c as [[] [] [] [] [] [] [] []]; vm_compute; reflexivity.
Qed.

(** C4, as the code has it: on a five-field line an empty class field
    raises [IndexError] and one that does not start with a decimal digit
    raises [ValueError]; a record is returned only for a class field that
    starts with a digit, its class code is that digit minus one, and the
    code lies in 0..2 exactly when the digit is 1, 2 or 3. *)
Theorem C4_class_code line pid k a s v :
  fields line = [pid; k; a; s; v] ->
  (k = EmptyString -> row_to_labeled_point line = Raise IndexError)
  /\ (forall c k', k = String c k' -> is_digit c = false ->
                   row_to_labeled_point line = Raise ValueError)
  /\ (forall r, row_to_labeled_point line = Ok r ->
        exists c k',
          k = String c k' /\ is_digit c = true
          /\ features r !! 0%nat = Some (digit_value c - 1)
          /\ (0 <= digit_value c - 1 <= 2 <-> char_in c "123" = true)).
Proof.
  intros Hf. split_and!.
  - intros ->. unfold row_to_labeled_point. rewrite Hf. reflexivity.
  - intros c k' -> Hc. unfold row_to_labeled_point. rewrite Hf. simpl.
    unfold int_of_char. rewrite Hc. reflexivity.
  - intros r Hrow. apply row_ok_inv in Hrow
      as (pid' & c & k' & a' & s' & v' & Hf' & Hc & _ & _ & _ & ->).
    rewrite Hf in Hf'. simplify_eq.
    exists c, k'. split_and!; try done.
    rewrite <- class_code_range, andb_true_iff, !Z.leb_le. reflexivity.
Qed.

Lemma C4_class_code_witness :
  let line := csv_line ["1"; "9th class"; "adults"; "man"; "yes"] in
  ("9th class" = EmptyString -> row_to_labeled_point line = Raise IndexError)
  /\ (forall c k', "9th class" = String c k' -> is_digit c = false ->
                   row_to_labeled_point line = Raise ValueError)
  /\ (forall r, row_to_labeled_point line = Ok r ->
        exists c k',
          "9th class" = String c k' /\ is_digit c = true
          /\ features r !! 0%nat = Some (digit_value c - 1)
          /\ (0 <= digit_value c - 1 <= 2 <-> char_in c "123" = true)).
Proof.
  apply (C4_class_code
           (csv_line ["1"; "9th class"; "adults"; "man"; "yes"])
           "1" "9th class" "adults" "man" "yes").
  vm_compute. reflexivity.
Defined.

(** C4 as stated fails: the class field [9th class] is not a known
    category, yet the line parses, with class code 8. *)
Lemma C4_ninth_class_accepted :
  let line := csv_line ["1"; "9th class"; "adults"; "man"; "yes"] in
  categories line = Some ("9th class", "adults", "man", "yes")
  /\ ("9th class" ∉ classes)
  /\ row_to_labeled_point line = Ok (mkLabeledPoint 1 [8; 1; 0]).
Proof.
  split_and!.
  - vm_compute. reflexivity.
  - unfold classes. rewrite !not_elem_of_cons.
    split_and!; try discriminate. apply not_elem_of_nil.
  - vm_compute. reflexivity.
Qed.

(** ** Round trip of the encoding *)

(** Case analysis on membership in an explicit list. *)
Ltac known_cases H :=
  first
    [ apply elem_of_nil in H; destruct H
    | rewrite elem_of_cons in H; destruct H as [->|H]; [|known_cases H] ].

(** Parsing a line of known categories and reading the codes back gives
    the categories of the line. *)
Lemma decode_row line :
  known_line line ->
  exists r, row_to_labeled_point line = Ok r /\ decode r = categories line.
Proof.
  unfold known_line, categories, row_to_labeled_point.
  destruct (fields line) as [|pid [|k [|a [|s [|v [|x xs]]]]]];
    try contradiction.
  intros (Hk & Ha & Hs & Hv).
  unfold classes in Hk; unfold ages in Ha; unfold sexes in Hs;
    unfold outcomes in Hv.
  known_cases Hk; known_cases Ha; known_cases Hs; known_cases Hv;
    eexists; split; reflexivity.
Qed.

(** C2: for every line whose class, age, sex and survived fields are known
    categories, the parser returns a record, and reading the four codes of
    that record back through the legend gives the four strings of the line;
    so two such lines with the same record have the same four strings. *)
Theorem C2_round_trip line :
  known_line line ->
  (exists r, row_to_labeled_point line = Ok r
             /\ decode r = categories line)
  /\ forall line',
       known_line line' ->
       row_to_labeled_point line' = row_to_labeled_point line ->
       categories line' = categories line.
Proof.
  intros Hk. split; [apply decode_row, Hk|].
  intros line' Hk' Heq.
  destruct (decode_row line Hk) as (r & Hr & Hd).
  destruct (decode_row line' Hk') as (r' & Hr' & Hd').
  rewrite Hr, Hr' in Heq. injection Heq as ->.
  rewrite <- Hd, <- Hd'. reflexivity.
Qed.

Lemma C2_round_trip_witness :
  let line := csv_line ["1204"; "3rd class"; "adults"; "women"; "no"] in
  (exists r, row_to_labeled_point line = Ok r
             /\ decode r = categories line)
  /\ forall line',
       known_line line' ->
       row_to_labeled_point line' = row_to_labeled_point line ->
       categories line' = categories line.
Proof.
  apply (C2_round_trip
           (csv_line ["1204"; "3rd class"; "adults"; "women"; "no"])).
  unfold known_line.
  replace (categories
             (csv_line ["1204"; "3rd class"; "adults"; "women"; "no"]))
    with (Some ("3rd class", "adults", "women", "no"))
    by (vm_compute; reflexivity).
  unfold classes, ages, sexes, outcomes.
  rewrite !elem_of_cons. tauto.
Defined.

(** ** The header filter *)

(** C10: on a file with first line [header], the clean step returns the
    lines different from [header], each as often as in the file and in
    the order of the file; no line equal to the header is left, the first
    or any later one. *)
Theorem C10_header_filter (header : string) (rest : list string) :
  exists data,
    data_rdd (header :: rest) = Ok data
    /\ (header ∉ data)
    /\ (forall line, line ∈ data <-> line ∈ rest /\ line <> header)
    /\ sublist data rest
    /\ (forall line, line <> header ->
          filter (fun l => l = line) data = filter (fun l => l = line) rest).
Proof.
  exists (filter (fun line => line <> header) rest).
  assert (Hd : data_rdd (header :: rest)
               = Ok (filter (fun line => line <> header) rest)).
  { unfold data_rdd. simpl. rewrite filter_cons_False by tauto.
    reflexivity. }
  split_and!.
  - exact Hd.
  - rewrite list_elem_of_filter. tauto.
  - intros line. rewrite list_elem_of_filter. tauto.
  - apply sublist_filter.
  - intros line Hne. rewrite list_filter_filter.
    apply list_filter_iff. intros l. split.
    + tauto.
    + intros ->. tauto.
Qed.

(** A data row spelled like the header goes with it. *)
Example header_twice :
  data_rdd ["h"; "row 1"; "h"; "row 2"] = Ok ["row 1"; "row 2"].
Proof. vm_compute. reflexivity. Qed.

(** An empty file has no first line. *)
Example header_of_empty : data_rdd [] = Raise ValueError.
Proof. reflexivity. Qed.

(** ** The train/test split *)

Lemma select_length {A : Type} (mask : list bool) (rdd : list A) :
  length mask = length rdd ->
  (length (select mask rdd) + length (select (map negb mask) rdd)
   = length rdd)%nat.
Proof.
  revert mask. induction rdd as [|x rest IH]; intros [|b mask] Hlen;
    simpl in *; try discriminate; try reflexivity.
  injection Hlen as Hlen. specialize (IH mask Hlen).
  destruct b; simpl; lia.
Qed.

Lemma select_permutation {A : Type} (mask : list bool) (rdd : list A) :
  length mask = length rdd ->
  select mask rdd ++ select (map negb mask) rdd ≡ₚ rdd.
Proof.
  revert mask. induction rdd as [|x rest IH]; intros [|b mask] Hlen;
    simpl in *; try discriminate; try reflexivity.
  injection Hlen as Hlen. specialize (IH mask Hlen).
  destruct b; simpl.
  - rewrite IH. reflexivity.
  - rewrite <- Permutation_middle, IH. reflexivity.
Qed.

Lemma select_elem_of {A : Type} (mask : list bool) (rdd : list A) x :
  x ∈ select mask rdd -> x ∈ rdd.
Proof.
  revert mask. induction rdd as [|y rest IH]; intros [|b mask];
    simpl; try (intros H; apply elem_of_nil in H; destruct H).
  destruct b; rewrite ?elem_of_cons; intros H.
  - destruct H as [->|H]; [left; reflexivity | right; eauto].
  - right. eauto.
Qed.

Lemma select_disjoint {A : Type} (mask : list bool) (rdd : list A) x :
  NoDup rdd -> x ∈ select mask rdd -> x ∉ select (map negb mask) rdd.
Proof.
  revert mask. induction rdd as [|y rest IH]; intros [|b mask] Hnd;
    simpl; try (intros H; apply elem_of_nil in H; destruct H).
  apply NoDup_cons in Hnd as [Hy Hnd].
  destruct b; simpl; rewrite ?elem_of_cons.
  - intros [->|H] H'.
    + apply Hy. eapply select_elem_of, H'.
    + eapply (IH mask); eassumption.
  - intros H [->|H'].
    + apply Hy. eapply select_elem_of, H.
    + eapply (IH mask); eassumption.
Qed.

Section RandomSplitProperties.
Context {A : Type}.
Variable Gen : Type.
Variable seeded : Z -> Gen.
Variable uniform : Gen -> Q * Gen.
Variable draw_seed : Gen -> Z * Gen.

Lemma range_mask_length lb ub g n :
  length (range_mask Gen uniform lb ub g n) = n.
Proof.
  revert g. induction n as [|n IH]; intros g; simpl; [reflexivity|].
  destruct (uniform g) as [u g']. simpl. rewrite IH. reflexivity.
Qed.

Lemma range_sample_select lb ub g (rdd : list A) :
  range_sample Gen uniform lb ub g rdd
  = select (range_mask Gen uniform lb ub g (length rdd)) rdd.
Proof.
  revert g. induction rdd as [|x rest IH]; intros g; simpl;
    [reflexivity|].
  destruct (uniform g) as [u g']. simpl.
  destruct (Qle_bool lb u && negb (Qle_bool ub u)); rewrite IH;
    reflexivity.
Qed.

(** C6: with a seed given, the subsets the split returns do not depend
    on the state of the session that runs it, so two runs on the same
    weights, seed and rows, in the same order, return the same subsets. *)
Theorem C6_split_deterministic (weights : list Q) (seed : Z)
    (rdd : list A) (session1 session2 : Gen) :
  (randomSplit Gen seeded uniform draw_seed weights (Some seed) rdd
               session1).1
  = (randomSplit Gen seeded uniform draw_seed weights (Some seed) rdd
                 session2).1.
Proof.
  unfold randomSplit. destruct (Qeq_bool (total weights) 0); reflexivity.
Qed.

Hypothesis uniform_unit : forall g, (0 <= (uniform g).1 < 1)%Q.

(** The two ranges of a two-way split are complementary on the unit
    interval. *)
Lemma range_mask_complement (c ub : Q) g n :
  (ub == 1)%Q ->
  range_mask Gen uniform c ub g n
  = map negb (range_mask Gen uniform 0 c g n).
Proof.
  intros Hub. revert g. induction n as [|n IH]; intros g; simpl;
    [reflexivity|].
  pose proof (uniform_unit g) as [H0 H1].
  destruct (uniform g) as [u g']. simpl in *. rewrite IH. f_equal.
  assert (Hl : Qle_bool 0 u = true) by (apply Qle_bool_iff; exact H0).
  assert (Hu : Qle_bool ub u = false).
  { destruct (Qle_bool ub u) eqn:E; [|reflexivity].
    apply Qle_bool_iff in E. rewrite Hub in E.
    exfalso. exact (Qlt_not_le _ _ H1 E). }
  rewrite Hl, Hu. simpl. rewrite andb_true_r, negb_involutive.
  reflexivity.
Qed.

(** C7: a two-way split with a seed assigns every row to exactly one of
    the two subsets: the training subset is the rows of a mask, in
    order, and the test subset the rows of the complementary mask; so
    the sizes add up to the number of rows, and when the rows are
    pairwise distinct no row is in both subsets. *)
Theorem C7_split_partitions (w1 w2 : Q) (seed : Z) (rdd : list A)
    (session : Gen) :
  ~ (w1 + w2 == 0)%Q ->
  exists training test mask,
    (randomSplit Gen seeded uniform draw_seed [w1; w2] (Some seed) rdd
                 session).1 = Ok [training; test]
    /\ length mask = length rdd
    /\ training = select mask rdd
    /\ test = select (map negb mask) rdd
    /\ (length training + length test = length rdd)%nat
    /\ training ++ test ≡ₚ rdd
    /\ (NoDup rdd -> forall x, x ∈ training -> x ∉ test).
Proof.
  intros Hs.
  set (s := total [w1; w2]).
  assert (Hs' : ~ (s == 0)%Q).
  { unfold s. change (total [w1; w2]) with (0 + w1 + w2)%Q.
    rewrite Qplus_0_l. exact Hs. }
  set (c1 := (0 + w1 / s)%Q).
  set (c2 := (c1 + w2 / s)%Q).
  assert (Hc2 : (c2 == 1)%Q).
  { unfold c2, c1, s. change (total [w1; w2]) with (0 + w1 + w2)%Q.
    field. exact Hs. }
  set (mask := range_mask Gen uniform 0 c1 (seeded seed) (length rdd)).
  exists (select mask rdd), (select (map negb mask) rdd), mask.
  assert (Hlen : length mask = length rdd) by apply range_mask_length.
  split_and!; try done.
  - unfold randomSplit. fold s.
    destruct (Qeq_bool s 0) eqn:E.
    { apply Qeq_bool_iff in E. contradiction. }
    simpl. fold c1. fold c2.
    rewrite !range_sample_select.
    rewrite (range_mask_complement c1 c2 _ _ Hc2). reflexivity.
  - apply select_length, Hlen.
  - apply select_permutation, Hlen.
  - intros Hnd x. apply select_disjoint, Hnd.
Qed.
End RandomSplitProperties.

Lemma Lcg_uniform_unit g : (0 <= (Lcg.uniform g).1 < 1)%Q.
Proof.
  unfold Lcg.uniform, Lcg.next. simpl.
  pose proof (Z.mod_pos_bound (1103515245 * g + 12345)
                (Z.pos Lcg.modulus) eq_refl) as [H0 H1].
  unfold Qle, Qlt. simpl. lia.
Qed.

Lemma C7_split_partitions_witness :
  exists training test mask,
    (randomSplit Z Lcg.seeded Lcg.uniform Lcg.draw_seed
                 [7 # 10; 3 # 10]%Q (Some 1) [11; 12; 13; 14; 15; 16] 5).1
    = Ok [training; test]
    /\ length mask = length [11; 12; 13; 14; 15; 16]
    /\ training = select mask [11; 12; 13; 14; 15; 16]
    /\ test = select (map negb mask) [11; 12; 13; 14; 15; 16]
    /\ (length training + length test
        = length [11; 12; 13; 14; 15; 16])%nat
    /\ training ++ test ≡ₚ [11; 12; 13; 14; 15; 16]
    /\ (NoDup [11; 12; 13; 14; 15; 16] ->
        forall x, x ∈ training -> x ∉ test).
Proof.
  apply (C7_split_partitions Z Lcg.seeded Lcg.uniform Lcg.draw_seed
           Lcg_uniform_unit (7 # 10) (3 # 10) 1 [11; 12; 13; 14; 15; 16] 5).
  unfold Qeq. simpl. lia.
Defined.

(** The same split on six rows, run. *)
Example split_six_rows :
  (randomSplit Z Lcg.seeded Lcg.uniform Lcg.draw_seed
               [7 # 10; 3 # 10]%Q (Some 1) [11; 12; 13; 14; 15; 16] 5).1
  = Ok [[11; 12; 13; 15]; [14; 16]].
Proof. vm_compute. reflexivity. Qed.

(** Without a seed the subsets depend on the session that runs the split. *)
Example split_without_seed :
  (randomSplit Z Lcg.seeded Lcg.uniform Lcg.draw_seed
               [7 # 10; 3 # 10]%Q None [11; 12; 13; 14; 15; 16] 5).1
  <> (randomSplit Z Lcg.seeded Lcg.uniform Lcg.draw_seed
                  [7 # 10; 3 # 10]%Q None [11; 12; 13; 14; 15; 16] 6).1.
Proof. vm_compute. discriminate. Qed.

(** ** Accuracy *)

Lemma count_matching (test_rdd : list LabeledPoint) (predictions : list Z) :
  length (filter (fun v_p : Z * Z => v_p.1 = v_p.2)
                 (truth_and_predictions_rdd test_rdd predictions))
  = matching test_rdd predictions.
Proof.
  unfold truth_and_predictions_rdd. revert predictions.
  induction test_rdd as [|lp rest IH]; intros [|p ps]; simpl;
    try reflexivity.
  rewrite filter_cons.
  case_decide; case_bool_decide; simpl in *; try congruence;
    rewrite IH; reflexivity.
Qed.

Lemma matching_le (test_rdd : list LabeledPoint) (predictions : list Z) :
  (matching test_rdd predictions <= length test_rdd)%nat.
Proof.
  revert predictions. induction test_rdd as [|lp rest IH];
    intros [|p ps]; simpl; try lia.
  specialize (IH ps). case_bool_decide; lia.
Qed.

Lemma matching_all (test_rdd : list LabeledPoint) (predictions : list Z) :
  Forall2 (fun lp p => label lp = p) test_rdd predictions ->
  matching test_rdd predictions = length test_rdd.
Proof.
  induction 1 as [|lp p rest ps Hlp _ IH]; simpl; [reflexivity|].
  rewrite IH. case_bool_decide; [reflexivity | contradiction].
Qed.

Lemma matching_none (test_rdd : list LabeledPoint) (predictions : list Z) :
  Forall2 (fun lp p => label lp <> p) test_rdd predictions ->
  matching test_rdd predictions = O.
Proof.
  induction 1 as [|lp p rest ps Hlp _ IH]; simpl; [reflexivity|].
  rewrite IH. case_bool_decide; [contradiction | reflexivity].
Qed.

(** C8: for a non-empty test subset and one prediction per test record,
    the accuracy is the number of records whose prediction equals the
    true label divided by the number of test records; it lies between 0
    and 1, is 1 when every prediction equals its label and 0 when none
    does. *)
Theorem C8_accuracy (test_rdd : list LabeledPoint) (predictions : list Z) :
  test_rdd <> [] ->
  length predictions = length test_rdd ->
  exists acc,
    accuracy (truth_and_predictions_rdd test_rdd predictions)
             (count test_rdd) = Ok acc
    /\ (acc == inject_Z (Z.of_nat (matching test_rdd predictions))
              / inject_Z (Z.of_nat (length test_rdd)))%Q
    /\ (0 <= acc <= 1)%Q
    /\ (Forall2 (fun lp p => label lp = p) test_rdd predictions ->
        (acc == 1)%Q)
    /\ (Forall2 (fun lp p => label lp <> p) test_rdd predictions ->
        (acc == 0)%Q).
Proof.
  intros Hne Hlen.
  set (n := Z.of_nat (length test_rdd)).
  set (m := Z.of_nat (matching test_rdd predictions)).
  assert (Hn : 0 < n) by (unfold n; destruct test_rdd; simpl; [done | lia]).
  assert (Hm : 0 <= m <= n)
    by (unfold m, n; pose proof (matching_le test_rdd predictions); lia).
  assert (HnQ : (inject_Z 0 < inject_Z n)%Q) by (rewrite <- Zlt_Qlt; exact Hn).
  change (inject_Z 0) with 0%Q in HnQ.
  exists (inject_Z m / inject_Z n)%Q.
  split_and!.
  - unfold accuracy, count. fold n.
    destruct (n =? 0) eqn:E; [lia|].
    rewrite count_matching. reflexivity.
  - reflexivity.
  - apply Qle_shift_div_l; [exact HnQ|].
    rewrite Qmult_0_l. change 0%Q with (inject_Z 0).
    rewrite <- Zle_Qle. lia.
  - apply Qle_shift_div_r; [exact HnQ|].
    rewrite Qmult_1_l, <- Zle_Qle. lia.
  - intros Hall. unfold m. rewrite (matching_all _ _ Hall). fold n.
    apply Qmult_inv_r. intros H0. rewrite H0 in HnQ.
    exact (Qlt_irrefl _ HnQ).
  - intros Hnone. unfold m. rewrite (matching_none _ _ Hnone).
    unfold Qdiv. apply Qmult_0_l.
Qed.

Lemma C8_accuracy_witness :
  let test_rdd := [mkLabeledPoint 1 [0; 1; 0]; mkLabeledPoint 0 [2; 1; 1];
                   mkLabeledPoint 0 [2; 1; 0]] in
  let predictions := [1; 1; 0] in
  exists acc,
    accuracy (truth_and_predictions_rdd test_rdd predictions)
             (count test_rdd) = Ok acc
    /\ (acc == inject_Z (Z.of_nat (matching test_rdd predictions))
              / inject_Z (Z.of_nat (length test_rdd)))%Q
    /\ (0 <= acc <= 1)%Q
    /\ (Forall2 (fun lp p => label lp = p) test_rdd predictions ->
        (acc == 1)%Q)
    /\ (Forall2 (fun lp p => label lp <> p) test_rdd predictions ->
        (acc == 0)%Q).
Proof.
  apply (C8_accuracy
           [mkLabeledPoint 1 [0; 1; 0]; mkLabeledPoint 0 [2; 1; 1];
            mkLabeledPoint 0 [2; 1; 0]]
           [1; 1; 0]).
  - discriminate.
  - reflexivity.
Defined.

(** The accuracy of that example is two thirds. *)
Example accuracy_two_thirds :
  accuracy (truth_and_predictions_rdd
              [mkLabeledPoint 1 [0; 1; 0]; mkLabeledPoint 0 [2; 1; 1];
               mkLabeledPoint 0 [2; 1; 0]]
              [1; 1; 0]) 3
  = Ok (2 / 3)%Q.
Proof. vm_compute. reflexivity. Qed.

(** An empty test subset makes the division raise. *)
Example accuracy_empty : accuracy [] (count (@nil LabeledPoint))
                         = Raise ZeroDivisionError.
Proof. reflexivity. Qed.

(** * Further properties of the notebook's code *)

(** ** Splitting and stripping *)

Lemma split_length sep s :
  length (split sep s) = S (count_char sep s).
Proof.
  induction s as [|c s IH]; simpl; [reflexivity|].
  destruct (Ascii.eqb c sep); simpl; [rewrite IH; reflexivity|].
  destruct (split sep s) as [|seg segs]; simpl in *; [discriminate|].
  exact IH.
Qed.

Lemma char_in_cons c c' s :
  char_in c (String c' s) = Ascii.eqb c c' || char_in c s.
Proof. reflexivity. Qed.

Lemma char_in_app c s t :
  char_in c (s ++ t) = char_in c s || char_in c t.
Proof.
  induction s as [|c' s IH]; [reflexivity|].
  change (String c' s ++ t) with (String c' (s ++ t)).
  rewrite !char_in_cons, IH, orb_assoc. reflexivity.
Qed.

Lemma split_no_sep sep s :
  Forall (fun seg => char_in sep seg = false) (split sep s).
Proof.
  induction s as [|c s IH]; simpl.
  - repeat constructor.
  - destruct (Ascii.eqb c sep) eqn:E.
    + constructor; [reflexivity | exact IH].
    + destruct (split sep s) as [|seg segs].
      * repeat constructor. rewrite char_in_cons, Ascii.eqb_sym, E.
        reflexivity.
      * apply Forall_cons in IH as [Hseg Hsegs].
        constructor; [|exact Hsegs].
        rewrite char_in_cons, Ascii.eqb_sym, E. exact Hseg.
Qed.

Lemma lstrip_char_in c chars s :
  char_in c s = false -> char_in c (lstrip chars s) = false.
Proof.
  induction s as [|c' s IH]; simpl; [tauto|].
  intros H. destruct (char_in c' chars); [|exact H].
  rewrite char_in_cons in H. apply orb_false_iff in H as [_ H]. auto.
Qed.

Lemma rstrip_char_in c chars s :
  char_in c s = false -> char_in c (rstrip chars s) = false.
Proof.
  induction s as [|c' s IH]; simpl; [tauto|].
  rewrite char_in_cons. intros H. apply orb_false_iff in H as [Hc Hs].
  specialize (IH Hs).
  destruct (rstrip chars s) as [|c'' r].
  - destruct (char_in c' chars); [reflexivity|].
    rewrite char_in_cons, Hc. reflexivity.
  - rewrite char_in_cons, Hc, IH. reflexivity.
Qed.

Lemma lstrip_head chars s c :
  head_char (lstrip chars s) = Some c -> char_in c chars = false.
Proof.
  induction s as [|c' s IH]; simpl; [discriminate|].
  destruct (char_in c' chars) eqn:E; [exact IH|].
  simpl. intros [= <-]. exact E.
Qed.

Lemma rstrip_head chars s c :
  head_char (rstrip chars s) = Some c -> head_char s = Some c.
Proof.
  destruct s as [|c' s]; simpl; [discriminate|].
  destruct (rstrip chars s); [destruct (char_in c' chars)|];
    simpl; congruence.
Qed.

Lemma rstrip_last chars s c :
  last_char (rstrip chars s) = Some c -> char_in c chars = false.
Proof.
  induction s as [|c' s IH]; simpl; [discriminate|].
  destruct (rstrip chars s) as [|c'' r].
  - destruct (char_in c' chars) eqn:E; simpl; [discriminate|].
    intros [= <-]. exact E.
  - intros H. apply IH. exact H.
Qed.

(** X1: a line that does not hold exactly four commas, the empty line
    among them, makes the five-name unpacking raise [ValueError]. *)
Theorem wrong_field_count_raises line :
  count_char "," line <> 4%nat ->
  row_to_labeled_point line = Raise ValueError.
Proof.
  intros Hn. unfold row_to_labeled_point.
  pose proof (split_length "," line) as Hlen.
  assert (Hf : length (fields line) = S (count_char "," line))
    by (unfold fields; rewrite length_map; exact Hlen).
  destruct (fields line) as [|pid [|k [|a [|s [|v [|x xs]]]]]];
    try reflexivity.
  simpl in Hf. lia.
Qed.

Lemma wrong_field_count_raises_witness :
  row_to_labeled_point "1,1st class,adults,man" = Raise ValueError.
Proof.
  apply (wrong_field_count_raises "1,1st class,adults,man").
  vm_compute. lia.
Defined.

(** X2: no field of a line holds a comma, and no field starts or ends
    with a quote character. *)
Theorem fields_clean line f :
  f ∈ fields line ->
  char_in "," f = false
  /\ head_char f <> Some dquote
  /\ last_char f <> Some dquote.
Proof.
  unfold fields. intros Hf.
  apply list_elem_of_fmap in Hf as (seg & -> & Hseg).
  pose proof (split_no_sep "," line) as Hall.
  rewrite Forall_forall in Hall. specialize (Hall seg Hseg).
  unfold strip. split_and!.
  - apply rstrip_char_in, lstrip_char_in, Hall.
  - intros H. apply rstrip_head, lstrip_head in H. discriminate.
  - intros H. apply rstrip_last in H. discriminate.
Qed.

Lemma fields_clean_witness :
  char_in "," "1st class" = false
  /\ head_char "1st class" <> Some dquote
  /\ last_char "1st class" <> Some dquote.
Proof.
  apply (fields_clean
           (csv_line ["1"; "1st class"; "adults"; "man"; "yes"])).
  replace (fields (csv_line ["1"; "1st class"; "adults"; "man"; "yes"]))
    with ["1"; "1st class"; "adults"; "man"; "yes"]
    by (vm_compute; reflexivity).
  rewrite !elem_of_cons. tauto.
Defined.

(** ** What the parser raises, and what it ignores *)

(** X3: the parser raises nothing but [ValueError], for a line that has
    not five fields or whose class field starts with a character that is
    no decimal digit; [IndexError], for an empty class field; and
    [RuntimeError('unknown value')], for an unknown age, sex or survived
    token on a line whose class field starts with a digit. *)
Theorem parser_exceptions line e :
  row_to_labeled_point line = Raise e ->
  (e = ValueError
   /\ (length (fields line) <> 5%nat
       \/ exists c k', fields line !! 1%nat = Some (String c k')
                       /\ is_digit c = false))
  \/ (e = IndexError
      /\ length (fields line) = 5%nat
      /\ fields line !! 1%nat = Some EmptyString)
  \/ (e = RuntimeError "unknown value"
      /\ exists pid c k' a s v,
           fields line = [pid; String c k'; a; s; v]
           /\ is_digit c = true
           /\ (a ∉ ages \/ s ∉ sexes \/ v ∉ outcomes)).
Proof.
  unfold row_to_labeled_point.
  destruct (fields line) as [|pid [|k [|a [|s [|v [|x xs]]]]]];
    try (intros [= <-]; left; split; [reflexivity | left; simpl; lia]).
  destruct k as [|c k']; simpl.
  { intros [= <-]. right. left. auto. }
  unfold int_of_char. destruct (is_digit c) eqn:Hc; simpl.
  - destruct (bool_decide (a ∉ ages)) eqn:Ha;
      [|destruct (bool_decide (s ∉ sexes)) eqn:Hs;
        [|destruct (bool_decide (v ∉ outcomes)) eqn:Hv]];
      simpl; try discriminate; intros [= <-]; right; right;
      (split; [reflexivity|]); exists pid, c, k', a, s, v;
      (split_and!; [reflexivity | exact Hc |]).
    + left. apply bool_decide_eq_true in Ha. exact Ha.
    + right. left. apply bool_decide_eq_true in Hs. exact Hs.
    + right. right. apply bool_decide_eq_true in Hv. exact Hv.
  - intros [= <-]. left. split; [reflexivity|]. right. eauto.
Qed.

Lemma parser_exceptions_witness :
  (IndexError = ValueError
   /\ (length (fields "7,,adults,man,no") <> 5%nat
       \/ exists c k', fields "7,,adults,man,no" !! 1%nat
                       = Some (String c k')
                       /\ is_digit c = false))
  \/ (IndexError = IndexError
      /\ length (fields "7,,adults,man,no") = 5%nat
      /\ fields "7,,adults,man,no" !! 1%nat = Some EmptyString)
  \/ (IndexError = RuntimeError "unknown value"
      /\ exists pid c k' a s v,
           fields "7,,adults,man,no" = [pid; String c k'; a; s; v]
           /\ is_digit c = true
           /\ (a ∉ ages \/ s ∉ sexes \/ v ∉ outcomes)).
Proof.
  apply (parser_exceptions "7,,adults,man,no" IndexError).
  vm_compute. reflexivity.
Defined.

(** X4: the record of a line depends on the first character of the class
    field and on the age, sex and survived fields only: the passenger
    number and the rest of the class field are ignored. *)
Theorem parser_ignores_id line1 line2 pid1 pid2 c k1 k2 a s v :
  fields line1 = [pid1; String c k1; a; s; v] ->
  fields line2 = [pid2; String c k2; a; s; v] ->
  row_to_labeled_point line1 = row_to_labeled_point line2.
Proof.
  intros H1 H2. unfold row_to_labeled_point. rewrite H1, H2. reflexivity.
Qed.

Lemma parser_ignores_id_witness :
  row_to_labeled_point "1,1st class,adults,man,yes"
  = row_to_labeled_point "999,1,adults,man,yes".
Proof.
  apply (parser_ignores_id "1,1st class,adults,man,yes"
           "999,1,adults,man,yes" "1" "999" "1"%char "st class" EmptyString
           "adults" "man" "yes").
  - vm_compute. reflexivity.
  - vm_compute. reflexivity.
Defined.

(** ** The format of the data file *)

Lemma split_plain sep s :
  char_in sep s = false -> split sep s = [s].
Proof.
  induction s as [|c s IH]; simpl; [reflexivity|].
  rewrite char_in_cons. intros H. apply orb_false_iff in H as [Hc Hs].
  rewrite Ascii.eqb_sym, Hc, (IH Hs). reflexivity.
Qed.

Lemma split_app sep s t :
  char_in sep s = false ->
  split sep (s ++ String sep t) = s :: split sep t.
Proof.
  induction s as [|c s IH]; simpl.
  - intros _. rewrite Ascii.eqb_refl. reflexivity.
  - rewrite char_in_cons. intros H. apply orb_false_iff in H as [Hc Hs].
    rewrite Ascii.eqb_sym, Hc, (IH Hs). reflexivity.
Qed.

Lemma rstrip_app_quote f :
  char_in dquote f = false ->
  rstrip (String dquote EmptyString) (f ++ String dquote EmptyString) = f.
Proof.
  induction f as [|c f IH]; [reflexivity|].
  rewrite char_in_cons. intros H. apply orb_false_iff in H as [Hc Hf].
  change (String c f ++ String dquote EmptyString)
    with (String c (f ++ String dquote EmptyString)).
  simpl. rewrite (IH Hf).
  destruct f; [|reflexivity].
  unfold char_in. simpl. rewrite Ascii.eqb_sym, Hc. reflexivity.
Qed.

Lemma lstrip_keep chars c s :
  char_in c chars = false -> lstrip chars (String c s) = String c s.
Proof. intros H. simpl. rewrite H. reflexivity. Qed.

Lemma strip_quoted f :
  char_in dquote f = false ->
  strip (String dquote EmptyString) (quoted f) = f.
Proof.
  intros Hf. unfold strip, quoted.
  change (lstrip (String dquote EmptyString)
            (String dquote (f ++ String dquote EmptyString)))
    with (lstrip (String dquote EmptyString)
            (f ++ String dquote EmptyString)).
  destruct f as [|c f]; [reflexivity|].
  pose proof Hf as Hf'.
  rewrite char_in_cons in Hf'. apply orb_false_iff in Hf' as [Hc _].
  assert (Hcc : char_in c (String dquote EmptyString) = false).
  { unfold char_in. simpl. rewrite Ascii.eqb_sym, Hc. reflexivity. }
  change (String c f ++ String dquote EmptyString)
    with (String c (f ++ String dquote EmptyString)).
  rewrite (lstrip_keep _ _ _ Hcc).
  change (String c (f ++ String dquote EmptyString))
    with (String c f ++ String dquote EmptyString).
  apply rstrip_app_quote, Hf.
Qed.

Lemma quoted_no_comma f :
  char_in "," f = false -> char_in "," (quoted f) = false.
Proof.
  intros Hf. unfold quoted.
  rewrite char_in_cons, char_in_app, Hf. reflexivity.
Qed.

(** X5: a line written the way the data file writes it, every value
    between quotes and the values joined by commas, reads back as exactly
    those values, provided no value holds a comma or a quote character. *)
Theorem fields_csv_line (fs : list string) :
  fs <> [] ->
  Forall (fun f => plain f = true) fs ->
  fields (csv_line fs) = fs.
Proof.
  intros Hne Hall. induction Hall as [|f rest Hf Hrest IH]; [done|].
  unfold plain in Hf. apply andb_true_iff in Hf as [Hc Hq].
  apply negb_true_iff in Hc, Hq.
  destruct rest as [|g rest].
  - simpl. unfold fields.
    rewrite (split_plain _ _ (quoted_no_comma _ Hc)). simpl.
    rewrite (strip_quoted _ Hq). reflexivity.
  - change (csv_line (f :: g :: rest))
      with (quoted f ++ String "," (csv_line (g :: rest))).
    unfold fields.
    rewrite (split_app _ _ _ (quoted_no_comma _ Hc)). simpl map.
    rewrite (strip_quoted _ Hq). f_equal.
    apply IH. discriminate.
Qed.

Lemma fields_csv_line_witness :
  fields (csv_line ["758"; "3rd class"; "adults"; "man"; "no"])
  = ["758"; "3rd class"; "adults"; "man"; "no"].
Proof.
  apply (fields_csv_line ["758"; "3rd class"; "adults"; "man"; "no"]).
  - discriminate.
  - repeat constructor.
Defined.

(** ** Cleaning and parsing a whole file *)

(** X6: the clean step loses as many lines as are equal to the first
    line, so the data is always shorter than the file. *)
Theorem data_count (header : string) (rest : list string) :
  exists data,
    data_rdd (header :: rest) = Ok data
    /\ (length data
        + length (filter (fun line => line = header) (header :: rest))
        = length (header :: rest))%nat
    /\ (length data < length (header :: rest))%nat.
Proof.
  eexists. split; [reflexivity|].
  set (raw := header :: rest).
  assert (Hsum : (length (filter (fun line => line <> header) raw)
                  + length (filter (fun line => line = header) raw)
                  = length raw)%nat).
  { induction raw as [|x raw IH]; [reflexivity|].
    rewrite !filter_cons. simpl.
    destruct (decide (x <> header)), (decide (x = header));
      simpl; try lia; tauto. }
  split; [exact Hsum|].
  apply (length_filter_lt _ _ header); [left | tauto].
Qed.

(** X7: when no later line is equal to the first line, the data is the
    file without its first line. *)
Theorem data_is_rest (header : string) (rest : list string) :
  header ∉ rest ->
  data_rdd (header :: rest) = Ok rest.
Proof.
  intros Hnot. unfold data_rdd. simpl.
  rewrite filter_cons_False by tauto. f_equal.
  induction rest as [|x rest IH]; [reflexivity|].
  apply not_elem_of_cons in Hnot as [Hx Hrest].
  rewrite filter_cons_True by congruence.
  rewrite (IH Hrest). reflexivity.
Qed.

Lemma data_is_rest_witness :
  data_rdd ["h"; "row 1"; "row 2"] = Ok ["row 1"; "row 2"].
Proof.
  apply (data_is_rest "h" ["row 1"; "row 2"]).
  rewrite !not_elem_of_cons. split_and!; try discriminate.
  apply not_elem_of_nil.
Defined.

Lemma map_rdd_ok {A B : Type} (f : A -> result B) (rdd : list A)
    (ys : list B) :
  map_rdd f rdd = Ok ys <-> Forall2 (fun x y => f x = Ok y) rdd ys.
Proof.
  revert ys. induction rdd as [|x rest IH]; intros ys; simpl.
  - split.
    + intros [= <-]. constructor.
    + intros H. inversion H. reflexivity.
  - split.
    + destruct (f x) as [y|e] eqn:Hx; simpl; [|discriminate].
      destruct (map_rdd f rest) as [ys'|e] eqn:Hr; simpl; [|discriminate].
      intros [= <-]. constructor; [exact Hx|]. apply IH. reflexivity.
    + intros H. inversion H as [|? y ? ys' Hx Hrest]; subst.
      rewrite Hx. simpl. apply IH in Hrest. rewrite Hrest. reflexivity.
Qed.

Lemma map_rdd_raises {A B : Type} (f : A -> result B) (rdd : list A) x :
  x ∈ rdd -> is_ok (f x) = false -> is_ok (map_rdd f rdd) = false.
Proof.
  intros Hin Hx. destruct (map_rdd f rdd) as [ys|e] eqn:E; [|reflexivity].
  apply map_rdd_ok in E.
  apply list_elem_of_lookup in Hin as [i Hi].
  destruct (Forall2_lookup_l _ _ _ _ _ E Hi) as (y & _ & Hy).
  rewrite Hy in Hx. discriminate.
Qed.

Lemma labeled_points_unfold (header : string) (rest : list string) :
  labeled_points_rdd (header :: rest)
  = map_rdd row_to_labeled_point (filter (fun line => line <> header) rest).
Proof.
  unfold labeled_points_rdd, data_rdd. simpl.
  rewrite filter_cons_False by tauto. reflexivity.
Qed.

(** X8: cleaning and parsing a file returns the list [lps] exactly when
    the lines different from the first line parse, one by one and in
    order, to the records of [lps]. *)
Theorem labeled_points_ok (header : string) (rest : list string)
    (lps : list LabeledPoint) :
  labeled_points_rdd (header :: rest) = Ok lps
  <-> Forall2 (fun line lp => row_to_labeled_point line = Ok lp)
              (filter (fun line => line <> header) rest) lps.
Proof. rewrite labeled_points_unfold. apply map_rdd_ok. Qed.

(** X9: one data line that does not parse is enough for the whole file to
    give no records. *)
Theorem labeled_points_fail_fast (header : string) (rest : list string)
    (line : string) :
  line ∈ rest -> line <> header ->
  is_ok (row_to_labeled_point line) = false ->
  is_ok (labeled_points_rdd (header :: rest)) = false.
Proof.
  intros Hin Hne Hbad. rewrite labeled_points_unfold.
  apply (map_rdd_raises _ _ line); [|exact Hbad].
  apply list_elem_of_filter. auto.
Qed.

Lemma labeled_points_fail_fast_witness :
  is_ok (labeled_points_rdd
           ["h"; "1,1st class,adults,man,yes"; "2,1st class,adult,man,no"])
  = false.
Proof.
  apply (labeled_points_fail_fast "h"
           ["1,1st class,adults,man,yes"; "2,1st class,adult,man,no"]
           "2,1st class,adult,man,no").
  - rewrite !elem_of_cons. auto.
  - discriminate.
  - vm_compute. reflexivity.
Defined.

Lemma decode_within (lp : LabeledPoint) :
  is_Some (decode lp) -> within_categories lp = true.
Proof.
  destruct lp as [l fs]. unfold decode, within_categories. simpl.
  destruct fs as [|k [|a [|g [|x xs]]]];
    try (intros [? H]; discriminate H).
  unfold class_of_code, age_of_code, sex_of_code, survived_of_label.
  intros [c H].
  repeat match type of H with
         | context [?x =? ?y] =>
             destruct (Z.eqb_spec x y); [subst|]
         end;
    try discriminate H; reflexivity.
Qed.

(** X10: when every data line of a file has known categories, the file
    parses, to one record per data line, and every record is within what
    cell 30 declares to the classifier: a label of one of [numClasses]
    classes and features within the sizes of
    [categoricalFeaturesInfo]. *)
Theorem known_file_within_categories (header : string)
    (rest : list string) :
  Forall known_line (filter (fun line => line <> header) rest) ->
  exists lps,
    labeled_points_rdd (header :: rest) = Ok lps
    /\ length lps = length (filter (fun line => line <> header) rest)
    /\ Forall (fun lp => within_categories lp = true) lps.
Proof.
  intros Hknown.
  assert (H : exists lps,
             Forall2 (fun line lp => row_to_labeled_point line = Ok lp)
                     (filter (fun line => line <> header) rest) lps
             /\ Forall (fun lp => within_categories lp = true) lps).
  { induction Hknown as [|line data Hline _ (lps & Hl & Hw)].
    - exists []. split; constructor.
    - destruct (decode_row line Hline) as (r & Hr & Hd).
      exists (r :: lps). split; constructor; try assumption.
      apply decode_within. rewrite Hd.
      unfold known_line in Hline.
      destruct (categories line); [eauto | contradiction]. }
  destruct H as (lps & Hl & Hw). exists lps. split_and!.
  - rewrite labeled_points_unfold. apply map_rdd_ok, Hl.
  - symmetry. eapply Forall2_length, Hl.
  - exact Hw.
Qed.

Lemma known_file_within_categories_witness :
  exists lps,
    labeled_points_rdd
      ["h"; "1,1st class,adults,man,yes"; "2,3rd class,child,women,no"]
    = Ok lps
    /\ length lps
       = length (filter (fun line => line <> "h")
                   ["1,1st class,adults,man,yes";
                    "2,3rd class,child,women,no"])
    /\ Forall (fun lp => within_categories lp = true) lps.
Proof.
  apply (known_file_within_categories "h"
           ["1,1st class,adults,man,yes"; "2,3rd class,child,women,no"]).
  rewrite !filter_cons_True by discriminate. rewrite filter_nil.
  unfold known_line, classes, ages, sexes, outcomes.
  repeat constructor; simpl; rewrite !elem_of_cons; tauto.
Defined.

(** ** Evaluating a model on the test subset *)

Section EvaluateProperties.
Variable predict : list Z -> Z.

(** The matching pairs of cell 36 are the test records whose label the
    model predicts. *)
Lemma evaluate_count (test_rdd : list LabeledPoint) :
  length (filter (fun v_p : Z * Z => v_p.1 = v_p.2)
            (truth_and_predictions_rdd test_rdd
               (predictions_rdd predict test_rdd)))
  = length (filter (fun lp => label lp = predict (features lp)) test_rdd).
Proof.
  unfold truth_and_predictions_rdd, predictions_rdd.
  induction test_rdd as [|lp rest IH]; [reflexivity|].
  simpl. rewrite !filter_cons. simpl.
  destruct (decide (label lp = predict (features lp))); simpl;
    rewrite IH; reflexivity.
Qed.

Lemma evaluate_unfold (test_rdd : list LabeledPoint) :
  evaluate predict test_rdd
  = if count test_rdd =? 0 then Raise ZeroDivisionError
    else Ok (inject_Z
               (Z.of_nat
                  (length (filter
                             (fun lp => label lp = predict (features lp))
                             test_rdd)))
             / inject_Z (count test_rdd))%Q.
Proof.
  unfold evaluate, accuracy. destruct (count test_rdd =? 0); [reflexivity|].
  unfold count at 1. rewrite evaluate_count. reflexivity.
Qed.

Lemma count_zero {X : Type} (rdd : list X) :
  (count rdd =? 0) = true <-> rdd = [].
Proof.
  unfold count. destruct rdd; simpl; split; try done.
Qed.

Lemma filter_all_length {X : Type} (P : X -> Prop)
    `{HP : !forall x, Decision (P x)} (l : list X) :
  length (filter P l) = length l <-> Forall P l.
Proof.
  induction l as [|x l IH]; [split; [constructor | reflexivity]|].
  rewrite filter_cons. pose proof (length_filter P l) as Hle.
  destruct (decide (P x)) as [Hx|Hx]; simpl.
  - rewrite Forall_cons. split.
    + intros [= H]. split; [exact Hx | apply IH, H].
    + intros [_ H]. f_equal. apply IH, H.
  - split; [lia|]. intros H. apply Forall_cons in H as [H _].
    contradiction.
Qed.

Lemma filter_none_length {X : Type} (P : X -> Prop)
    `{HP : !forall x, Decision (P x)} (l : list X) :
  length (filter P l) = O <-> Forall (fun x => ~ P x) l.
Proof.
  induction l as [|x l IH]; [split; [constructor | reflexivity]|].
  rewrite filter_cons.
  destruct (decide (P x)) as [Hx|Hx]; simpl.
  - split; [discriminate|]. intros H. apply Forall_cons in H as [H _].
    contradiction.
  - rewrite Forall_cons, IH. tauto.
Qed.

Lemma Qdiv_inject_one (m n : Z) :
  0 < n -> (inject_Z m / inject_Z n == 1)%Q <-> m = n.
Proof.
  intros Hn. destruct n as [|p|p]; try lia.
  unfold Qdiv, Qmult, Qinv, Qeq, inject_Z. simpl. lia.
Qed.

Lemma Qdiv_inject_zero (m n : Z) :
  0 < n -> (inject_Z m / inject_Z n == 0)%Q <-> m = 0.
Proof.
  intros Hn. destruct n as [|p|p]; try lia.
  unfold Qdiv, Qmult, Qinv, Qeq, inject_Z. simpl. lia.
Qed.

(** X11: on a non-empty test subset the accuracy of a model is 1 exactly
    when the model predicts the label of every test record, and 0
    exactly when it predicts the label of none. *)
Theorem evaluate_extremes (test_rdd : list LabeledPoint) :
  test_rdd <> [] ->
  exists acc,
    evaluate predict test_rdd = Ok acc
    /\ ((acc == 1)%Q
        <-> Forall (fun lp => label lp = predict (features lp)) test_rdd)
    /\ ((acc == 0)%Q
        <-> Forall (fun lp => label lp <> predict (features lp)) test_rdd).
Proof.
  intros Hne. rewrite evaluate_unfold.
  destruct (count test_rdd =? 0) eqn:E.
  { apply count_zero in E. contradiction. }
  assert (Hn : 0 < count test_rdd).
  { unfold count in *. destruct test_rdd; [done | simpl; lia]. }
  eexists. split; [reflexivity|]. split.
  - rewrite (Qdiv_inject_one _ _ Hn). unfold count.
    rewrite Nat2Z.inj_iff. apply filter_all_length.
  - rewrite (Qdiv_inject_zero _ _ Hn).
    change 0 with (Z.of_nat 0). rewrite Nat2Z.inj_iff.
    apply filter_none_length.
Qed.

(** X12: the accuracy does not depend on the order of the test
    records. *)
Theorem evaluate_permutation (test_rdd test_rdd' : list LabeledPoint) :
  test_rdd ≡ₚ test_rdd' ->
  evaluate predict test_rdd = evaluate predict test_rdd'.
Proof.
  intros Hp. rewrite !evaluate_unfold. unfold count.
  assert (Hn : length test_rdd = length test_rdd')
    by (rewrite Hp; reflexivity).
  assert (Hm : length (filter (fun lp => label lp = predict (features lp))
                         test_rdd)
               = length (filter
                           (fun lp => label lp = predict (features lp))
                           test_rdd'))
    by (rewrite Hp; reflexivity).
  rewrite Hn, Hm. reflexivity.
Qed.

(** X13: evaluating a model raises only on an empty test subset, and
    then [ZeroDivisionError]. *)
Theorem evaluate_raises (test_rdd : list LabeledPoint) (e : exn) :
  evaluate predict test_rdd = Raise e
  <-> test_rdd = [] /\ e = ZeroDivisionError.
Proof.
  rewrite evaluate_unfold. destruct (count test_rdd =? 0) eqn:E.
  - apply count_zero in E. split.
    + intros [= <-]. auto.
    + intros [_ ->]. reflexivity.
  - split; [discriminate|]. intros [H _].
    apply count_zero in H. congruence.
Qed.

End EvaluateProperties.

Lemma evaluate_extremes_witness :
  let test_rdd := [mkLabeledPoint 1 [0; 1; 1]; mkLabeledPoint 0 [2; 1; 0]] in
  exists acc,
    evaluate women_survive test_rdd = Ok acc
    /\ ((acc == 1)%Q
        <-> Forall (fun lp => label lp = women_survive (features lp))
                   test_rdd)
    /\ ((acc == 0)%Q
        <-> Forall (fun lp => label lp <> women_survive (features lp))
                   test_rdd).
Proof.
  apply (evaluate_extremes women_survive
           [mkLabeledPoint 1 [0; 1; 1]; mkLabeledPoint 0 [2; 1; 0]]).
  discriminate.
Defined.

Lemma evaluate_permutation_witness :
  evaluate women_survive
    [mkLabeledPoint 1 [0; 1; 1]; mkLabeledPoint 1 [2; 1; 0]]
  = evaluate women_survive
      [mkLabeledPoint 1 [2; 1; 0]; mkLabeledPoint 1 [0; 1; 1]].
Proof.
  apply (evaluate_permutation women_survive
           [mkLabeledPoint 1 [0; 1; 1]; mkLabeledPoint 1 [2; 1; 0]]
           [mkLabeledPoint 1 [2; 1; 0]; mkLabeledPoint 1 [0; 1; 1]]).
  apply perm_swap.
Defined.


(** The example model on three records: two of three labels predicted. *)
Example evaluate_women_survive :
  evaluate women_survive
    [mkLabeledPoint 1 [0; 1; 1]; mkLabeledPoint 1 [2; 1; 0];
     mkLabeledPoint 0 [2; 1; 0]]
  = Ok (2 / 3)%Q.
Proof. vm_compute. reflexivity. Qed.
